(** * k6-testcase: the WebSocket load-test script [testcase.js]

    A shallow embedding of the script's three parts: the [LogTime]
    latency recorder, the [Performant] connection session with its four
    socket handlers, and the scenario catalogue with the start-delay
    computation of [main].

    Conventions of the embedding.
    - A JavaScript number that the script handles is an integer count of
      milliseconds or of virtual users, so it is a [Z]; the two other
      values a recorder field can hold, [undefined] and [NaN], are
      constructors of [jsval].
    - [Date.now()] is the one clock of the script.  Every operation that
      reads it takes the reading as its argument [now].
    - The k6 metric objects only forward samples to the runtime.  The
      runtime's sink is the chronological list of the samples received.
    - Mutable objects ([this] of a recorder, the closure of a session) are
      passed in and returned. *)

From Stdlib Require Import ZArith List String Ascii Bool Lia.
From Stdlib Require Import QArith Qround.
From Stdlib Require Import DecimalString.
Import ListNotations.

Local Open Scope string_scope.
Local Open Scope Z_scope.
Local Open Scope list_scope.

(** ** The fragment of JavaScript values used by the recorder *)

Module JS.

Inductive jsval : Type :=
| JUndefined
| JNumber (z : Z)
| JNaN.

(** ToBoolean: [undefined], [0] and [NaN] are falsy. *)
Definition truthy (v : jsval) : bool :=
  match v with
  | JUndefined => false
  | JNumber z => negb (z =? 0)
  | JNaN => false
  end.

(** [a - b]: ToNumber of [undefined] is [NaN], and [NaN] is absorbing. *)
Definition sub (a b : jsval) : jsval :=
  match a, b with
  | JNumber x, JNumber y => JNumber (x - y)
  | _, _ => JNaN
  end.

(** [a || b] on an optional string: the empty string is falsy. *)
Definition or_string (a : option string) (b : string) : string :=
  match a with
  | Some s => if String.eqb s EmptyString then b else s
  | None => b
  end.

(** Template-literal rendering of an integer. *)
Definition show (n : Z) : string :=
  NilZero.string_of_int (Z.to_int n).

(** [a == lit] for [a] a string or [undefined] and [lit] a string
    literal: no coercion applies, [undefined] equals no string. *)
Definition loose_eq (a : option string) (lit : string) : bool :=
  match a with
  | Some s => String.eqb s lit
  | None => false
  end.

(** [Math.floor] *)
Definition Math_floor (q : Q) : Z := Qfloor q.

End JS.
Import JS.

(** ** The metrics sink of the k6 runtime *)

Inductive MetricKind : Type := KTrend | KGauge | KCounter.

Record Sample : Type := mkSample {
  kind : MetricKind;
  metric : string;
  value : jsval
}.

Definition MetricKind_eqb (a b : MetricKind) : bool :=
  match a, b with
  | KTrend, KTrend | KGauge, KGauge | KCounter, KCounter => true
  | _, _ => false
  end.

(** Handles created by [new Trend(name, isTime)], [new Gauge(name)] and
    [new Counter(name)]. *)
Record Trend : Type := mkTrend { trend_name : string; trend_isTime : bool }.
Record Gauge : Type := mkGauge { gauge_name : string }.
Record Counter : Type := mkCounter { counter_name : string }.

Definition Trend_add (t : Trend) (v : jsval) (sink : list Sample) : list Sample :=
  sink ++ [mkSample KTrend (trend_name t) v].

Definition Gauge_add (g : Gauge) (v : jsval) (sink : list Sample) : list Sample :=
  sink ++ [mkSample KGauge (gauge_name g) v].

Definition Counter_add (c : Counter) (v : jsval) (sink : list Sample) : list Sample :=
  sink ++ [mkSample KCounter (counter_name c) v].

(** The samples of one kind, and how many there are. *)
Definition of_kind (k : MetricKind) (sink : list Sample) : list Sample :=
  filter (fun s => MetricKind_eqb (kind s) k) sink.

Definition count_kind (k : MetricKind) (sink : list Sample) : nat :=
  List.length (of_kind k sink).

(** ** class LogTime *)

Module LogTime.

Record t : Type := mk {
  name : string;
  trend : Trend;
  startTime : jsval;
  endedTime : jsval
}.

(** [constructor(name)]: stores the name and creates the Trend.  Neither
    time field is assigned. *)
Definition new (name : option string) : t :=
  let name' := or_string name "" in
  {| name := name';
     trend := mkTrend name' true;
     startTime := JUndefined;
     endedTime := JUndefined |}.

(** [get duration()] *)
Definition duration (this : t) : jsval :=
  if negb (truthy (endedTime this)) then JNumber (-1)
  else sub (endedTime this) (startTime this).

(** [start()] *)
Definition start (now : Z) (this : t) : t :=
  {| name := name this;
     trend := trend this;
     startTime := JNumber now;
     endedTime := endedTime this |}.

(** [end()]: returns the value, the updated recorder and the sink. *)
Definition end_ (now : Z) (this : t) (sink : list Sample)
  : jsval * t * list Sample :=
  let this' := {| name := name this;
                  trend := trend this;
                  startTime := startTime this;
                  endedTime := JNumber now |} in
  let sink' := Trend_add (trend this') (duration this') sink in
  (duration this', this', sink').

End LogTime.

(** ** class Performant: the session opened by [onConnect] *)

Module Performant.

(** The closure of [onConnect] (the three metric objects), the worker's
    [__VU], and the effects of the session so far: samples forwarded,
    [console.log] calls (one list of arguments per call), payloads given
    to [socket.send], and [sleep] calls in seconds. *)
Record Session : Type := mk {
  VU : Z;
  gauge : Gauge;
  trend : LogTime.t;
  counter : Counter;
  sink : list Sample;
  console : list (list string);
  sent : list string;
  slept : list Z
}.

Definition onConnect (vu : Z) : Session :=
  {| VU := vu;
     gauge := mkGauge "gaugeRtt";
     trend := LogTime.new (Some "api_name");
     counter := mkCounter "api_name";
     sink := [];
     console := [];
     sent := [];
     slept := [] |}.

Definition log (line : list string) (s : Session) : Session :=
  {| VU := VU s; gauge := gauge s; trend := trend s; counter := counter s;
     sink := sink s;
     console := console s ++ [line];
     sent := sent s; slept := slept s |}.

(** [socket.on('open', ...)]; [iso] is [new Date().toISOString()]. *)
Definition on_open (iso : string) (s : Session) : Session :=
  let s := log [("VU:" ++ show (VU s) ++ " " ++ iso ++ " connected")%string] s in
  {| VU := VU s; gauge := gauge s; trend := trend s; counter := counter s;
     sink := sink s; console := console s;
     sent := sent s ++ ["onTestcase1"];
     slept := slept s |}.

(** [socket.on('close', ...)] *)
Definition on_close (s : Session) : Session :=
  let s := log [("VU " ++ show (VU s) ++ ": disconnected")%string] s in
  {| VU := VU s; gauge := gauge s; trend := trend s; counter := counter s;
     sink := sink s; console := console s; sent := sent s;
     slept := slept s ++ [1] |}.

(** [socket.on('message', ...)]; [now] is the clock reading that
    [trend.end()] takes when it runs. *)
Definition on_message (now : Z) (message : string) (s : Session) : Session :=
  let s := log [("VU " ++ show (VU s) ++ " 長度 "
                 ++ show (Z.of_nat (String.length message) * 2)
                 ++ " bytes, 訊息: " ++ message)%string] s in
  if String.eqb message "onTestcase1" then
    let '(rtt, trend', sink1) := LogTime.end_ now (trend s) (sink s) in
    let sink2 := Gauge_add (gauge s) rtt sink1 in
    let sink3 := Counter_add (counter s) (JNumber 1) sink2 in
    {| VU := VU s; gauge := gauge s; trend := trend'; counter := counter s;
       sink := sink3;
       console := console s; sent := sent s; slept := slept s |}
  else s.

(** [socket.on('error', ...)]; [cause] is [e.error()]. *)
Definition on_error (cause : string) (s : Session) : Session :=
  if negb (String.eqb cause "websocket: close sent") then
    log [(show (VU s) ++ " An unexpected error occurred: ")%string; cause] s
  else s.

(** The signals of the transport, and the session driven by them in
    arrival order. *)
Inductive Event : Type :=
| SigOpen (iso : string)
| SigClose
| SigMessage (now : Z) (message : string)
| SigError (cause : string).

Definition dispatch (s : Session) (e : Event) : Session :=
  match e with
  | SigOpen iso => on_open iso s
  | SigClose => on_close s
  | SigMessage now message => on_message now message s
  | SigError cause => on_error cause s
  end.

Definition run (events : list Event) (s : Session) : Session :=
  fold_left dispatch events s.

End Performant.

(** The session fed a sequence of incoming messages, each paired with
    the clock reading at its arrival, and the number of them that are the
    echo of the probe. *)
Definition receive (messages : list (Z * string)) (s : Performant.Session)
  : Performant.Session :=
  Performant.run
    (map (fun m => Performant.SigMessage (fst m) (snd m)) messages) s.

Definition echoes (messages : list (Z * string)) : nat :=
  List.length
    (filter (fun m => String.eqb (snd m) "onTestcase1") messages).

(** The metric objects as [onConnect] creates them. *)
Definition wired (s : Performant.Session) : Prop :=
  Performant.gauge s = mkGauge "gaugeRtt"
  /\ LogTime.trend (Performant.trend s) = mkTrend "api_name" true
  /\ Performant.counter s = mkCounter "api_name".

(** ** The scenario catalogue *)

Record Stage : Type := mkStage { stage_duration : string; target : Z }.

(** One entry of [scenarios], by its [executor].  A key that an object
    literal of the script leaves out is [None]. *)
Inductive Scenario : Type :=
| SharedIterations (vus iterations : Z) (maxDuration : string)
| ConstantArrivalRate (preAllocatedVUs : Z) (timeUnit : string) (rate : Z)
                      (duration : string) (exec : string)
| RampingArrivalRate (preAllocatedVUs maxVUs startRate : option Z)
                     (timeUnit : option string) (stages : list Stage)
| ConstantVUs (vus : Z) (duration : string) (tags : list (string * string)).

Definition executor (sc : Scenario) : string :=
  match sc with
  | SharedIterations _ _ _ => "shared-iterations"
  | ConstantArrivalRate _ _ _ _ _ => "constant-arrival-rate"
  | RampingArrivalRate _ _ _ _ _ => "ramping-arrival-rate"
  | ConstantVUs _ _ _ => "constant-vus"
  end.

(** A k6 options object: objects are association lists in key order, and
    a key the literal leaves out is the empty list. *)
Record Options : Type := mkOptions {
  thresholds : list (string * list string);
  scenarios : list (string * Scenario);
  stages : list Stage
}.

(** [__ENV] *)
Record Env : Type := mkEnv {
  SCENE : option string;
  PVUS : option string;
  DURATION : option string
}.

Record PerfEnvironmentT : Type := mkPerfEnvironment {
  scene : option string;
  perf_vus : option string;
  duration : string
}.

Section Catalogue.

Variable ENV : Env.

Definition PerfEnvironment : PerfEnvironmentT :=
  {| scene := SCENE ENV;
     perf_vus := PVUS ENV;
     duration := or_string (DURATION ENV) "1m" |}.

Definition iterations_testing : Options :=
  {| thresholds := [];
     scenarios :=
       [("iterations", SharedIterations 1 1 "10m");
        ("monitor", ConstantArrivalRate 1 "1s" 1 "1m10s" "monitor")];
     stages := [] |}.

Definition ramping_arrival_rate_testing : Options :=
  {| thresholds := [];
     scenarios :=
       [("stress",
         RampingArrivalRate (Some 2) (Some 2) (Some 1) (Some "1s")
           [mkStage "30s" 0;
            mkStage "5m" 10;
            mkStage "5m" 50;
            mkStage "10m" 100;
            mkStage "30s" 0])];
     stages := [] |}.

Definition stress_testing_options : Options :=
  {| thresholds := [];
     scenarios := [];
     stages :=
       [mkStage "10s" 10;
        mkStage "10s" 10;
        mkStage "10s" 50;
        mkStage "10s" 0] |}.

Definition constant_testing : Options :=
  {| thresholds := [("gaugeRtt", ["value<100"])];
     scenarios :=
       [("constant",
         ConstantVUs 2 (duration PerfEnvironment) [("type", "game")])];
     stages := [] |}.

Definition breakpoint_testing : Options :=
  {| thresholds := [];
     scenarios :=
       [("breakpoint",
         RampingArrivalRate None None None None [mkStage "10m" 20000])];
     stages := [] |}.

Definition initialize (scene : option string) : Options :=
  if loose_eq scene "iterations" then iterations_testing
  else if loose_eq scene "ramping_arrival_rate_testing" then
    ramping_arrival_rate_testing
  else if loose_eq scene "stress" then stress_testing_options
  else if loose_eq scene "breakpoint" then breakpoint_testing
  else constant_testing.

Definition options : Options := initialize (scene PerfEnvironment).

(** The five descriptors of the catalogue. *)
Definition catalogue : list Options :=
  [iterations_testing; ramping_arrival_rate_testing;
   stress_testing_options; breakpoint_testing; constant_testing].

End Catalogue.

(** The scene names that [initialize] compares against. *)
Definition matched_names : list string :=
  ["iterations"; "ramping_arrival_rate_testing"; "stress"; "breakpoint"].

(** A ramp that starts and ends at target zero. *)
Definition ramp_from_and_to_zero (st : list Stage) : bool :=
  match st with
  | [] => false
  | first :: _ => (target first =? 0) && (target (last st first) =? 0)
  end.

(** ** [main]: the start delay of a worker *)

Definition per_stage_clients (idInTest iterationInScenario : Z) : Z :=
  if iterationInScenario =? 0 then idInTest else iterationInScenario.

Definition per_stage_duration : Z := 1000.

Definition timeout (idInTest iterationInScenario : Z) : Z :=
  Math_floor (inject_Z (per_stage_clients idInTest iterationInScenario))
  * per_stage_duration.

(** [main] logs one line and hands [defer] to [setTimeout] with the
    delay: the result is the line and the delay. *)
Definition main (VU idInTest iterationInScenario : Z) : list string * Z :=
  let timeout := timeout idInTest iterationInScenario in
  ([("START TIME: " ++ show VU ++ " / " ++ show timeout ++ " / "
     ++ show idInTest ++ " / " ++ show iterationInScenario)%string],
   timeout).

(** The delay as the specification's testable property words it: the
    larger of the ordinal and the iteration index (the iteration index
    counting only when it is not zero), times the stage duration. *)
Definition spec_computeDelay (ordinal iteration : Z) : Z :=
  (if iteration =? 0 then ordinal else Z.max ordinal iteration) * 1000.

(** ** Sequences of calls and signals *)

(** A sequence of method calls on one recorder, each with the clock
    reading it takes, threaded through the recorder and the sink. *)
Inductive Call : Type :=
| CallStart (now : Z)
| CallEnd (now : Z).

Definition call (st : LogTime.t * list Sample) (c : Call)
  : LogTime.t * list Sample :=
  match c with
  | CallStart now => (LogTime.start now (fst st), snd st)
  | CallEnd now =>
      let '(_, this', sink') := LogTime.end_ now (fst st) (snd st) in
      (this', sink')
  end.

Definition calls (cs : list Call) (this : LogTime.t) (sink : list Sample)
  : LogTime.t * list Sample :=
  fold_left call cs (this, sink).

Definition is_end (c : Call) : bool :=
  match c with
  | CallEnd _ => true
  | CallStart _ => false
  end.

(** Measured cycles: [start()] at the first instant of each pair, then
    [end()] at the second. *)
Definition cycles (cs : list (Z * Z)) : list Call :=
  flat_map (fun c => [CallStart (fst c); CallEnd (snd c)]) cs.

(** Signals by kind. *)
Definition is_open (e : Performant.Event) : bool :=
  match e with
  | Performant.SigOpen _ => true
  | _ => false
  end.

Definition is_close (e : Performant.Event) : bool :=
  match e with
  | Performant.SigClose => true
  | _ => false
  end.

Definition is_echo (e : Performant.Event) : bool :=
  match e with
  | Performant.SigMessage _ message => String.eqb message "onTestcase1"
  | _ => false
  end.

Definition is_reported (e : Performant.Event) : bool :=
  match e with
  | Performant.SigError cause =>
      negb (String.eqb cause "websocket: close sent")
  | _ => true
  end.

Definition count_signals (p : Performant.Event -> bool)
    (events : list Performant.Event) : nat :=
  List.length (filter p events).

(** What the getter yields after [end()] at [now] on a recorder whose
    start marker is unset. *)
Definition unstarted_rtt (now : Z) : jsval :=
  if now =? 0 then JNumber (-1) else JNaN.

(** The samples one signal adds to the sink of a session whose recorder
    was never started. *)
Definition echo_samples (e : Performant.Event) : list Sample :=
  if is_echo e then
    match e with
    | Performant.SigMessage now _ =>
        [mkSample KTrend "api_name" (unstarted_rtt now);
         mkSample KGauge "gaugeRtt" (unstarted_rtt now);
         mkSample KCounter "api_name" (JNumber 1)]
    | _ => []
    end
  else [].

(** The names the module exports: the two classes, [options], [setup],
    the default export [main], and [teardown]. *)
Definition exports : list string :=
  ["LogTime"; "Performant"; "options"; "setup"; "default"; "teardown"].

(** The [exec] key of a scenario, where its literal has one. *)
Definition exec_of (sc : Scenario) : option string :=
  match sc with
  | ConstantArrivalRate _ _ _ _ exec => Some exec
  | _ => None
  end.

(** * Properties *)

(** ** The definitions on concrete inputs *)

Example LogTime_cycle :
  LogTime.end_ 1500 (LogTime.start 1000 (LogTime.new (Some "rtt"))) []
  = (JNumber 500,
     LogTime.mk "rtt" (mkTrend "rtt" true) (JNumber 1000) (JNumber 1500),
     [mkSample KTrend "rtt" (JNumber 500)]).
Proof. reflexivity. Qed.

Example session_echo :
  let s := Performant.run
             [Performant.SigOpen "t"; Performant.SigMessage 7 "hello";
              Performant.SigMessage 1500 "onTestcase1"]
             (Performant.onConnect 3) in
  Performant.sink s
  = [mkSample KTrend "api_name" JNaN; mkSample KGauge "gaugeRtt" JNaN;
     mkSample KCounter "api_name" (JNumber 1)]
  /\ Performant.sent s = ["onTestcase1"]
  /\ List.length (Performant.console s) = 3%nat.
Proof. repeat split. Qed.

Example main_first_iteration :
  main 2 2 0 = (["START TIME: 2 / 2000 / 2 / 0"], 2000).
Proof. reflexivity. Qed.

Example main_later_iteration :
  main 2 2 1 = (["START TIME: 2 / 1000 / 2 / 1"], 1000).
Proof. reflexivity. Qed.

Example initialize_default :
  forall env, initialize env None = constant_testing env.
Proof. reflexivity. Qed.


(** ** The latency recorder *)

Section LogTimeFacts.

Variables (this : LogTime.t) (sink : list Sample).

(** [end()] touches neither the name, the Trend nor the start marker. *)
Lemma end_keeps_start (now : Z) :
  LogTime.startTime (snd (fst (LogTime.end_ now this sink)))
  = LogTime.startTime this.
Proof. reflexivity. Qed.

(** What the getter yields right after [end()] stored the reading [now]. *)
Lemma duration_after_end (now : Z) :
  now <> 0 ->
  fst (fst (LogTime.end_ now this sink))
  = sub (JNumber now) (LogTime.startTime this).
Proof.
  intros Hnow. unfold LogTime.end_, LogTime.duration. cbn.
  apply Z.eqb_neq in Hnow. rewrite Hnow. reflexivity.
Qed.

(** A reading of exactly [0] is falsy, so the getter's guard fires. *)
Lemma duration_after_end_at_epoch :
  fst (fst (LogTime.end_ 0 this sink)) = JNumber (-1).
Proof. reflexivity. Qed.

(** Without a start marker the subtraction has no number to subtract. *)
Lemma end_unstarted (now : Z) :
  LogTime.startTime this = JUndefined ->
  now <> 0 ->
  fst (fst (LogTime.end_ now this sink)) = JNaN.
Proof.
  intros Hs Hnow. rewrite duration_after_end by assumption.
  rewrite Hs. reflexivity.
Qed.

End LogTimeFacts.

(** C9. For every recorder, [start()] at instant [T0] followed directly by
    [end()] at instant [T1] forwards exactly one sample to the sink, under
    the recorder's Trend, and its value is [T1 - T0]; [end()] returns the
    same value.  [T1] is a clock reading other than the epoch instant
    [0], which the getter's guard reads as "not ended". *)
Theorem LogTime_single_cycle (this : LogTime.t) (sink : list Sample) (T0 T1 : Z) :
  T1 <> 0 ->
  let '(rtt, this', sink') := LogTime.end_ T1 (LogTime.start T0 this) sink in
  rtt = JNumber (T1 - T0)
  /\ sink' = sink ++ [mkSample KTrend (trend_name (LogTime.trend this))
                              (JNumber (T1 - T0))]
  /\ LogTime.startTime this' = JNumber T0
  /\ LogTime.endedTime this' = JNumber T1.
Proof.
  intros HT1. unfold LogTime.end_, LogTime.start, LogTime.duration, Trend_add.
  cbn. apply Z.eqb_neq in HT1. rewrite HT1. cbn. repeat split.
Qed.

Lemma LogTime_single_cycle_witness :
  1500 <> 0
  /\ let '(rtt, this', sink') :=
       LogTime.end_ 1500 (LogTime.start 1000 (LogTime.new (Some "api_name"))) []
     in
     rtt = JNumber (1500 - 1000)
     /\ sink' = [] ++ [mkSample KTrend "api_name" (JNumber (1500 - 1000))]
     /\ LogTime.startTime this' = JNumber 1000
     /\ LogTime.endedTime this' = JNumber 1500.
Proof.
  split; [discriminate |].
  apply (LogTime_single_cycle (LogTime.new (Some "api_name")) [] 1000 1500).
  discriminate.
Defined.

(** C2, as amended. For every recorder, in whatever state (so also when
    [start()] was never called on it), [end()] forwards exactly one
    sample to the sink under the recorder's Trend, and that sample is the
    value [end()] returns, namely what the [duration] getter then yields.
    The sentinel [-1] is what the getter yields while the recorder holds
    no end instant; the getter forwards nothing. *)
Theorem LogTime_end_always_forwards (this : LogTime.t) (sink : list Sample) (now : Z) :
  let '(rtt, this', sink') := LogTime.end_ now this sink in
  sink' = sink ++ [mkSample KTrend (trend_name (LogTime.trend this)) rtt]
  /\ rtt = LogTime.duration this'
  /\ LogTime.endedTime this' = JNumber now
  /\ LogTime.duration
       (LogTime.mk (LogTime.name this) (LogTime.trend this)
                   (LogTime.startTime this) JUndefined)
     = JNumber (-1).
Proof.
  unfold LogTime.end_, Trend_add. cbn. repeat split.
Qed.

(** C2 as stated fails: [end()] on a recorder that was constructed and
    never started returns [NaN], not [-1], and the sink receives a
    sample. *)
Lemma LogTime_end_unstarted_counterexample :
  let '(rtt, _, sink') :=
    LogTime.end_ 1500 (LogTime.new (Some "api_name")) [] in
  rtt = JNaN
  /\ sink' = [mkSample KTrend "api_name" JNaN]
  /\ rtt <> JNumber (-1)
  /\ sink' <> [].
Proof.
  cbn. repeat split; discriminate.
Qed.

(** C3, as amended. For every recorder, [end()] leaves the start marker
    as it is, so a second [end()] with no [start()] in between forwards a
    second sample; that sample is measured from the same start marker. *)
Theorem LogTime_end_keeps_start_marker
    (this : LogTime.t) (sink : list Sample) (T1 T2 : Z) :
  T2 <> 0 ->
  let '(rtt1, this1, sink1) := LogTime.end_ T1 this sink in
  let '(rtt2, this2, sink2) := LogTime.end_ T2 this1 sink1 in
  LogTime.startTime this1 = LogTime.startTime this
  /\ LogTime.startTime this2 = LogTime.startTime this
  /\ sink2 = sink ++ [mkSample KTrend (trend_name (LogTime.trend this)) rtt1;
                      mkSample KTrend (trend_name (LogTime.trend this)) rtt2]
  /\ rtt2 = sub (JNumber T2) (LogTime.startTime this).
Proof.
  intros HT2.
  pose proof (duration_after_end
                (snd (fst (LogTime.end_ T1 this sink)))
                (snd (LogTime.end_ T1 this sink)) T2 HT2) as Hrtt2.
  unfold LogTime.end_, Trend_add in *. cbn in *.
  repeat split.
  - rewrite <- app_assoc. reflexivity.
  - exact Hrtt2.
Qed.

Lemma LogTime_end_keeps_start_marker_witness :
  1800 <> 0
  /\ let '(rtt1, this1, sink1) :=
       LogTime.end_ 1500 (LogTime.start 1000 (LogTime.new (Some "api_name"))) []
     in
     let '(rtt2, this2, sink2) := LogTime.end_ 1800 this1 sink1 in
     LogTime.startTime this1 = JNumber 1000
     /\ LogTime.startTime this2 = JNumber 1000
     /\ sink2 = [] ++ [mkSample KTrend "api_name" rtt1;
                       mkSample KTrend "api_name" rtt2]
     /\ rtt2 = sub (JNumber 1800) (JNumber 1000).
Proof.
  split; [discriminate |].
  apply (LogTime_end_keeps_start_marker
           (LogTime.start 1000 (LogTime.new (Some "api_name"))) [] 1500 1800).
  discriminate.
Defined.

(** C3 as stated fails: after a measured cycle the start marker is still
    set, and a second [end()] appends a second sample. *)
Lemma LogTime_second_end_counterexample :
  let '(_, this1, sink1) :=
    LogTime.end_ 1500 (LogTime.start 1000 (LogTime.new (Some "api_name"))) []
  in
  let '(_, _, sink2) := LogTime.end_ 1800 this1 sink1 in
  LogTime.startTime this1 = JNumber 1000
  /\ LogTime.startTime this1 <> JUndefined
  /\ sink1 = [mkSample KTrend "api_name" (JNumber 500)]
  /\ sink2 = [mkSample KTrend "api_name" (JNumber 500);
              mkSample KTrend "api_name" (JNumber 800)]
  /\ sink2 <> sink1.
Proof.
  cbn. repeat split; discriminate.
Qed.

(** ** The session *)

Import Performant.

Lemma prefix_app (a b : string) : String.prefix a (a ++ b)%string = true.
Proof.
  induction a as [| c a IH]; cbn; [destruct b; reflexivity |].
  destruct (ascii_dec c c) as [_ | Hc]; [exact IH | contradiction].
Qed.

Lemma count_kind_app (k : MetricKind) (l l' : list Sample) :
  count_kind k (l ++ l') = (count_kind k l + count_kind k l')%nat.
Proof.
  unfold count_kind, of_kind. rewrite filter_app. apply length_app.
Qed.

(** A message that is not the echo is logged and nothing else. *)
Lemma on_message_other (now : Z) (message : string) (s : Session) :
  message <> "onTestcase1" ->
  exists line, on_message now message s = log [line] s.
Proof.
  intros Hm. unfold on_message.
  apply String.eqb_neq in Hm. rewrite Hm. eexists. reflexivity.
Qed.

(** The echo: [trend.end()], then the gauge, then the counter. *)
Lemma on_message_echo (now : Z) (s : Session) :
  let rtt := fst (fst (LogTime.end_ now (trend s) (sink s))) in
  sink (on_message now "onTestcase1" s)
  = sink s ++ [mkSample KTrend (trend_name (LogTime.trend (trend s))) rtt;
               mkSample KGauge (gauge_name (gauge s)) rtt;
               mkSample KCounter (counter_name (counter s)) (JNumber 1)].
Proof.
  unfold on_message, LogTime.end_, Trend_add, Gauge_add, Counter_add. cbn.
  repeat rewrite <- app_assoc. reflexivity.
Qed.

(** No handler replaces a metric object, renames the Trend of the
    recorder, or sets the recorder's start marker. *)
Lemma dispatch_closure (s : Session) (e : Event) :
  VU (dispatch s e) = VU s
  /\ gauge (dispatch s e) = gauge s
  /\ counter (dispatch s e) = counter s
  /\ LogTime.trend (trend (dispatch s e)) = LogTime.trend (trend s)
  /\ LogTime.startTime (trend (dispatch s e)) = LogTime.startTime (trend s).
Proof.
  destruct e as [iso | | now message | cause]; cbn.
  - repeat split.
  - repeat split.
  - unfold on_message.
    destruct (String.eqb message "onTestcase1"); cbn; repeat split.
  - unfold on_error.
    destruct (negb (String.eqb cause "websocket: close sent")); cbn;
      repeat split.
Qed.

Lemma run_closure (events : list Event) (s : Session) :
  VU (run events s) = VU s
  /\ gauge (run events s) = gauge s
  /\ counter (run events s) = counter s
  /\ LogTime.trend (trend (run events s)) = LogTime.trend (trend s)
  /\ LogTime.startTime (trend (run events s)) = LogTime.startTime (trend s).
Proof.
  revert s. induction events as [| e events IH]; intros s; cbn.
  - repeat split.
  - destruct (IH (dispatch s e)) as (H1 & H2 & H3 & H4 & H5).
    destruct (dispatch_closure s e) as (D1 & D2 & D3 & D4 & D5).
    unfold run in *. cbn.
    rewrite H1, H2, H3, H4, H5. repeat split; assumption.
Qed.

Lemma run_wired (events : list Event) (s : Session) :
  wired s -> wired (run events s).
Proof.
  intros (Hg & Ht & Hc).
  destruct (run_closure events s) as (_ & R2 & R3 & R4 & _).
  unfold wired. rewrite R2, R3, R4. repeat split; assumption.
Qed.

Lemma onConnect_wired (vu : Z) : wired (onConnect vu).
Proof. repeat split. Qed.

(** In this script nothing ever sets the start marker of a session's
    recorder. *)
Lemma session_never_started (vu : Z) (events : list Event) :
  LogTime.startTime (trend (run events (onConnect vu))) = JUndefined.
Proof.
  destruct (run_closure events (onConnect vu)) as (_ & _ & _ & _ & R5).
  rewrite R5. reflexivity.
Qed.

(** C1, as amended. Constructing the recorder in the connection handler
    captures no start instant: the constructor leaves the start marker
    unset, and only [start()] sets it.  When the matching echo triggers
    [end()], one sample is forwarded under ['api_name'], and its value is
    the instant of the echo minus the start marker the recorder holds at
    that moment; the gauge receives the same value. *)
Theorem recorder_not_started_by_construction
    (vu : Z) (events : list Event) (now : Z) :
  now <> 0 ->
  LogTime.startTime (trend (onConnect vu)) = JUndefined
  /\ (forall T0, LogTime.startTime (LogTime.start T0 (trend (onConnect vu)))
                 = JNumber T0)
  /\ let s := run events (onConnect vu) in
     let rtt := sub (JNumber now) (LogTime.startTime (trend s)) in
     sink (on_message now "onTestcase1" s)
     = sink s ++ [mkSample KTrend "api_name" rtt;
                  mkSample KGauge "gaugeRtt" rtt;
                  mkSample KCounter "api_name" (JNumber 1)].
Proof.
  intros Hnow. split; [reflexivity |]. split; [reflexivity |].
  cbv zeta.
  destruct (run_wired events (onConnect vu) (onConnect_wired vu))
    as (Hg & Ht & Hc).
  rewrite on_message_echo. cbv zeta.
  rewrite duration_after_end by exact Hnow.
  rewrite Hg, Ht, Hc. reflexivity.
Qed.

Lemma recorder_not_started_by_construction_witness :
  1500 <> 0
  /\ LogTime.startTime (trend (onConnect 3)) = JUndefined
  /\ (forall T0, LogTime.startTime (LogTime.start T0 (trend (onConnect 3)))
                 = JNumber T0)
  /\ let s := run [SigOpen "2024-01-01T00:00:00.000Z"] (onConnect 3) in
     let rtt := sub (JNumber 1500) (LogTime.startTime (trend s)) in
     sink (on_message 1500 "onTestcase1" s)
     = sink s ++ [mkSample KTrend "api_name" rtt;
                  mkSample KGauge "gaugeRtt" rtt;
                  mkSample KCounter "api_name" (JNumber 1)].
Proof.
  split; [discriminate |].
  apply (recorder_not_started_by_construction
           3 [SigOpen "2024-01-01T00:00:00.000Z"] 1500).
  discriminate.
Defined.

(** C1 as stated fails: a session whose recorder is constructed, say at
    instant 1000, and which receives the echo at instant 1500 forwards
    [NaN], not the 500 ms between the two instants. *)
Lemma recorder_construction_counterexample :
  let s := run [SigOpen "2024-01-01T00:00:00.000Z";
                SigMessage 1500 "onTestcase1"] (onConnect 3) in
  LogTime.startTime (trend (onConnect 3)) = JUndefined
  /\ sink s = [mkSample KTrend "api_name" JNaN;
               mkSample KGauge "gaugeRtt" JNaN;
               mkSample KCounter "api_name" (JNumber 1)]
  /\ of_kind KTrend (sink s)
     <> [mkSample KTrend "api_name" (JNumber (1500 - 1000))].
Proof.
  cbn. repeat split. discriminate.
Qed.

(** C7. In the error handler, a cause equal to ["websocket: close sent"]
    leaves the session as it is, so nothing is logged; any other cause
    makes exactly one [console.log] call and nothing else, and the text of
    that call begins with the worker's [__VU]. *)
Theorem on_error_reports (s : Session) (cause : string) :
  (cause = "websocket: close sent" -> on_error cause s = s)
  /\ (cause <> "websocket: close sent" ->
      let line :=
        [(show (VU s) ++ " An unexpected error occurred: ")%string; cause] in
      on_error cause s = log line s
      /\ console (on_error cause s) = console s ++ [line]
      /\ sink (on_error cause s) = sink s
      /\ String.prefix (show (VU s)) (hd EmptyString line) = true).
Proof.
  split.
  - intros ->. reflexivity.
  - intros Hc. cbv zeta. unfold on_error.
    apply String.eqb_neq in Hc. rewrite Hc. cbn.
    repeat split. apply prefix_app.
Qed.

Lemma on_error_reports_witness :
  on_error "websocket: close sent" (onConnect 3) = onConnect 3
  /\ console (on_error "connection reset by peer" (onConnect 3))
     = [] ++ [["3 An unexpected error occurred: "; "connection reset by peer"]].
Proof.
  split.
  - apply (proj1 (on_error_reports (onConnect 3) "websocket: close sent")).
    reflexivity.
  - apply (proj2 (on_error_reports (onConnect 3) "connection reset by peer")).
    discriminate.
Defined.

(** ** Message filtering *)

Lemma receive_cons (m : Z * string) (messages : list (Z * string)) (s : Session) :
  receive (m :: messages) s = receive messages (on_message (fst m) (snd m) s).
Proof. reflexivity. Qed.

Lemma on_message_closure (now : Z) (message : string) (s : Session) :
  gauge (on_message now message s) = gauge s
  /\ counter (on_message now message s) = counter s
  /\ LogTime.trend (trend (on_message now message s)) = LogTime.trend (trend s).
Proof.
  destruct (dispatch_closure s (SigMessage now message)) as (_ & H2 & H3 & H4 & _).
  repeat split; assumption.
Qed.

(** Messages among which none is the echo leave the sink alone. *)
Lemma receive_no_echo (messages : list (Z * string)) :
  forall s, echoes messages = 0%nat ->
            sink (receive messages s) = sink s.
Proof.
  induction messages as [| [now message] messages IH]; intros s Hcount.
  - reflexivity.
  - rewrite receive_cons. unfold echoes in *.
    cbn [filter fst snd] in *.
    destruct (String.eqb_spec message "onTestcase1") as [Heq | Hneq];
      [discriminate |].
    rewrite (IH _ Hcount).
    destruct (on_message_other now message s Hneq) as [line ->].
    reflexivity.
Qed.

(** Messages among which exactly one is the echo add its three samples. *)
Lemma receive_one_echo (messages : list (Z * string)) :
  forall s, echoes messages = 1%nat ->
  exists rtt,
    sink (receive messages s)
    = sink s ++ [mkSample KTrend (trend_name (LogTime.trend (trend s))) rtt;
                 mkSample KGauge (gauge_name (gauge s)) rtt;
                 mkSample KCounter (counter_name (counter s)) (JNumber 1)].
Proof.
  induction messages as [| [now message] messages IH]; intros s Hcount.
  - discriminate.
  - rewrite receive_cons. unfold echoes in *.
    cbn [filter fst snd] in *.
    destruct (String.eqb_spec message "onTestcase1") as [Heq | Hneq].
    + subst message. injection Hcount as Hrest.
      rewrite (receive_no_echo messages _ Hrest).
      eexists. apply on_message_echo.
    + destruct (IH (on_message now message s) Hcount) as [rtt Hsink].
      destruct (on_message_closure now message s) as (Hg & Hc & Ht).
      rewrite Hg, Hc, Ht in Hsink.
      destruct (on_message_other now message s Hneq) as [line Hlog].
      exists rtt. rewrite Hsink, Hlog. reflexivity.
Qed.

(** C8. For every sequence of incoming messages of which exactly one is
    ["onTestcase1"], however many others come before or after it, the
    session forwards the one Trend sample of [end()], one gauge update
    with the same value and one counter increment by one, and nothing
    else; a message that is not ["onTestcase1"] changes neither the sink
    nor the recorder. *)
Theorem message_filtering (messages : list (Z * string)) (s : Session) :
  echoes messages = 1%nat ->
  (exists rtt,
     sink (receive messages s)
     = sink s ++ [mkSample KTrend (trend_name (LogTime.trend (trend s))) rtt;
                  mkSample KGauge (gauge_name (gauge s)) rtt;
                  mkSample KCounter (counter_name (counter s)) (JNumber 1)])
  /\ count_kind KCounter (sink (receive messages s))
     = S (count_kind KCounter (sink s))
  /\ count_kind KGauge (sink (receive messages s))
     = S (count_kind KGauge (sink s))
  /\ (forall now message s',
        message <> "onTestcase1" ->
        sink (on_message now message s') = sink s'
        /\ trend (on_message now message s') = trend s').
Proof.
  intros Hone.
  destruct (receive_one_echo messages s Hone) as [rtt Hsink].
  split; [exists rtt; exact Hsink |].
  rewrite Hsink, !count_kind_app. cbn.
  split; [apply Nat.add_1_r |]. split; [apply Nat.add_1_r |].
  intros now message s' Hneq.
  destruct (on_message_other now message s' Hneq) as [line ->].
  split; reflexivity.
Qed.

Lemma message_filtering_witness :
  let messages := [(1200, "welcome"); (1500, "onTestcase1"); (1700, "tick")] in
  let s := on_open "2024-01-01T00:00:00.000Z" (onConnect 3) in
  echoes messages = 1%nat
  /\ count_kind KCounter (sink (receive messages s))
     = S (count_kind KCounter (sink s))
  /\ count_kind KGauge (sink (receive messages s))
     = S (count_kind KGauge (sink s)).
Proof.
  cbv zeta. split; [reflexivity |].
  destruct (message_filtering
              [(1200, "welcome"); (1500, "onTestcase1"); (1700, "tick")]
              (on_open "2024-01-01T00:00:00.000Z" (onConnect 3))
              eq_refl) as (_ & Hcounter & Hgauge & _).
  split; assumption.
Defined.

(** C10. In every session the recorder's Trend and the Counter carry the
    one name ['api_name'] and the Gauge the name ['gaugeRtt'], whatever
    signals the session has handled; so each matching echo emits a
    duration sample and a counter increment under ['api_name'] and a
    gauge update under ['gaugeRtt'], and ['gaugeRtt'] is the metric that
    the threshold of the constant scenario names. *)
Theorem metric_names (env : Env) (vu : Z) (events : list Event) (now : Z) :
  let s := run events (onConnect vu) in
  trend_name (LogTime.trend (trend s)) = "api_name"
  /\ counter_name (counter s) = "api_name"
  /\ gauge_name (gauge s) = "gaugeRtt"
  /\ (exists rtt,
        sink (on_message now "onTestcase1" s)
        = sink s ++ [mkSample KTrend "api_name" rtt;
                     mkSample KGauge "gaugeRtt" rtt;
                     mkSample KCounter "api_name" (JNumber 1)])
  /\ thresholds (constant_testing env) = [("gaugeRtt", ["value<100"])]
  /\ "gaugeRtt" <> "api_name".
Proof.
  cbv zeta.
  destruct (run_wired events (onConnect vu) (onConnect_wired vu))
    as (Hg & Ht & Hc).
  rewrite Hg, Ht, Hc. cbn [trend_name counter_name gauge_name].
  repeat split.
  - eexists. rewrite on_message_echo. cbv zeta. rewrite Hg, Ht, Hc.
    reflexivity.
  - discriminate.
Qed.

(** ** The start delay *)

Lemma Math_floor_integer (z : Z) : Math_floor (inject_Z z) = z.
Proof. apply Qfloor_Z. Qed.

(** Where the code and the wording with the maximum agree: on a worker's
    first iteration, and whenever the iteration index has caught up with
    the ordinal. *)
Lemma timeout_meets_spec (ordinal iteration : Z) :
  iteration = 0 \/ ordinal <= iteration ->
  timeout ordinal iteration = spec_computeDelay ordinal iteration.
Proof.
  intros H. unfold timeout, spec_computeDelay, per_stage_clients,
    per_stage_duration.
  rewrite Math_floor_integer.
  destruct (Z.eqb_spec iteration 0) as [-> | Hne]; [reflexivity |].
  destruct H as [H | H]; [contradiction |].
  rewrite Z.max_r by exact H. reflexivity.
Qed.

(** C4, as amended. For all non-negative integers [ordinal] and
    [iteration], the start delay is the iteration index when that is not
    zero and the ordinal otherwise, times the stage duration of 1000 ms;
    it is never negative, and it is a function of these two numbers alone
    (the delay handed to [setTimeout] is the same for every [__VU]). *)
Theorem timeout_by_batch (ordinal iteration : Z) :
  0 <= ordinal -> 0 <= iteration ->
  timeout ordinal iteration
  = (if iteration =? 0 then ordinal else iteration) * 1000
  /\ 0 <= timeout ordinal iteration
  /\ (forall vu, snd (main vu ordinal iteration) = timeout ordinal iteration).
Proof.
  intros Ho Hi. unfold main. cbn [snd].
  unfold timeout, per_stage_clients, per_stage_duration.
  rewrite Math_floor_integer.
  split; [reflexivity |]. split; [| reflexivity].
  destruct (iteration =? 0); lia.
Qed.

Lemma timeout_by_batch_witness :
  0 <= 2 /\ 0 <= 1
  /\ timeout 2 1 = (if 1 =? 0 then 2 else 1) * 1000
  /\ 0 <= timeout 2 1
  /\ (forall vu, snd (main vu 2 1) = timeout 2 1).
Proof.
  split; [discriminate |]. split; [discriminate |].
  apply (timeout_by_batch 2 1); discriminate.
Defined.

(** C4 as stated fails: worker 2 on its second iteration (index 1) waits
    1000 ms, where the maximum of ordinal and iteration gives 2000 ms. *)
Lemma timeout_max_counterexample :
  timeout 2 1 = 1000
  /\ spec_computeDelay 2 1 = 2000
  /\ timeout 2 1 <> spec_computeDelay 2 1.
Proof.
  repeat split. discriminate.
Qed.

(** ** Scenario resolution *)

Ltac by_scene_name name :=
  unfold initialize, loose_eq;
  destruct (String.eqb_spec name "iterations");
  [| destruct (String.eqb_spec name "ramping_arrival_rate_testing");
     [| destruct (String.eqb_spec name "stress");
        [| destruct (String.eqb_spec name "breakpoint")]]].

(** C5, as amended. The identifier that resolves, by exact case-sensitive
    match, to the ramping-arrival-rate descriptor (a pool of 2
    preallocated and at most 2 workers, five stages whose first and last
    targets are zero) rather than to the constant fallback descriptor is
    ["ramping_arrival_rate_testing"], and no other string does. *)
Theorem initialize_ramping (env : Env) (name : string) :
  (initialize env (Some name) = ramping_arrival_rate_testing
   <-> name = "ramping_arrival_rate_testing")
  /\ ramping_arrival_rate_testing <> constant_testing env
  /\ exists st,
       scenarios (ramping_arrival_rate_testing)
       = [("stress",
           RampingArrivalRate (Some 2) (Some 2) (Some 1) (Some "1s") st)]
       /\ List.length st = 5%nat
       /\ ramp_from_and_to_zero st = true.
Proof.
  split; [| split].
  - split.
    + by_scene_name name; intros H; try assumption; discriminate H.
    + intros ->. reflexivity.
  - discriminate.
  - eexists. repeat split.
Qed.

Lemma initialize_ramping_witness :
  initialize (mkEnv (Some "ramping_arrival_rate_testing") None None)
             (Some "ramping_arrival_rate_testing")
  = ramping_arrival_rate_testing.
Proof.
  apply (proj1 (initialize_ramping
                  (mkEnv (Some "ramping_arrival_rate_testing") None None)
                  "ramping_arrival_rate_testing")).
  reflexivity.
Defined.

(** C5 as stated fails: with [SCENE=ramping_arrival_rate] the script runs
    the constant descriptor, which is not the ramping one. *)
Lemma initialize_ramping_counterexample :
  let env := mkEnv (Some "ramping_arrival_rate") None None in
  options env = constant_testing env
  /\ initialize env (Some "ramping_arrival_rate") = constant_testing env
  /\ initialize env (Some "ramping_arrival_rate")
     <> ramping_arrival_rate_testing.
Proof.
  cbv zeta. repeat split. discriminate.
Qed.

(** C6. For every scene identifier (a string, the empty string, or the
    absent [undefined]) [initialize] returns one of the five descriptors
    of the catalogue; and every identifier that is none of the names it
    compares against, the empty string among them, gets the constant
    descriptor, the same as the identifier ["constant"] gets. *)
Theorem initialize_total_with_fallback (env : Env) (scene : option string) :
  In (initialize env scene) (catalogue env)
  /\ ((forall name, scene = Some name -> ~ In name matched_names) ->
      initialize env scene = constant_testing env
      /\ initialize env scene = initialize env (Some "constant")).
Proof.
  split.
  - destruct scene as [name |]; [| cbn; tauto].
    by_scene_name name; cbn; tauto.
  - intros Hnot. destruct scene as [name |]; [| split; reflexivity].
    specialize (Hnot name eq_refl).
    by_scene_name name; try (split; reflexivity);
      exfalso; apply Hnot; subst name; cbn; auto 8.
Qed.

Lemma initialize_total_with_fallback_witness :
  let env := mkEnv (Some "") None (Some "30s") in
  (forall name, Some "" = Some name -> ~ In name matched_names)
  /\ In (options env) (catalogue env)
  /\ options env = constant_testing env
  /\ options env = initialize env (Some "constant").
Proof.
  cbv zeta.
  assert (Hempty : forall name, Some "" = Some name -> ~ In name matched_names).
  { intros name Heq. injection Heq as <-. cbn.
    intros [H | [H | [H | [H | []]]]]; discriminate H. }
  split; [exact Hempty |].
  destruct (initialize_total_with_fallback
              (mkEnv (Some "") None (Some "30s")) (Some ""))
    as [Hin Hfallback].
  split; [exact Hin |]. exact (Hfallback Hempty).
Defined.

(** * Further properties of the script *)

(** ** The recorder under sequences of calls *)

Lemma calls_cons (c : Call) (cs : list Call) (this : LogTime.t)
    (sink : list Sample) :
  calls (c :: cs) this sink
  = calls cs (fst (call (this, sink) c)) (snd (call (this, sink) c)).
Proof.
  unfold calls. cbn [fold_left]. destruct (call (this, sink) c). reflexivity.
Qed.

Lemma calls_app (cs cs' : list Call) (this : LogTime.t) (sink : list Sample) :
  calls (cs ++ cs') this sink
  = calls cs' (fst (calls cs this sink)) (snd (calls cs this sink)).
Proof.
  unfold calls. rewrite fold_left_app.
  destruct (fold_left call cs (this, sink)). reflexivity.
Qed.

(** X1. [start()] overwrites an unfinished measurement: after [start()]
    at [T0], [start()] again at [T0'] and [end()] at [T1], the sample
    forwarded is [T1 - T0']; the first start leaves no trace. *)
Theorem LogTime_restart_overwrites
    (this : LogTime.t) (sink : list Sample) (T0 T0' T1 : Z) :
  T1 <> 0 ->
  LogTime.start T0' (LogTime.start T0 this) = LogTime.start T0' this
  /\ snd (calls [CallStart T0; CallStart T0'; CallEnd T1] this sink)
     = sink ++ [mkSample KTrend (trend_name (LogTime.trend this))
                         (JNumber (T1 - T0'))].
Proof.
  intros HT1. split; [reflexivity |].
  unfold calls. cbn [fold_left call fst snd].
  unfold LogTime.end_, LogTime.start, LogTime.duration, Trend_add. cbn.
  apply Z.eqb_neq in HT1. rewrite HT1. reflexivity.
Qed.

Lemma LogTime_restart_overwrites_witness :
  1500 <> 0
  /\ LogTime.start 1200 (LogTime.start 1000 (LogTime.new (Some "api_name")))
     = LogTime.start 1200 (LogTime.new (Some "api_name"))
  /\ snd (calls [CallStart 1000; CallStart 1200; CallEnd 1500]
                (LogTime.new (Some "api_name")) [])
     = [] ++ [mkSample KTrend "api_name" (JNumber (1500 - 1200))].
Proof.
  split; [discriminate |].
  apply (LogTime_restart_overwrites
           (LogTime.new (Some "api_name")) [] 1000 1200 1500).
  discriminate.
Defined.

(** A call changes neither the name nor the Trend of the recorder, and
    only ever appends to the sink. *)
Lemma call_shape (this : LogTime.t) (sink : list Sample) (c : Call) :
  LogTime.name (fst (call (this, sink) c)) = LogTime.name this
  /\ LogTime.trend (fst (call (this, sink) c)) = LogTime.trend this
  /\ snd (call (this, sink) c)
     = sink ++ (if is_end c
                then [mkSample KTrend (trend_name (LogTime.trend this))
                               (LogTime.duration (fst (call (this, sink) c)))]
                else []).
Proof.
  destruct c as [now | now]; cbn.
  - rewrite app_nil_r. repeat split.
  - repeat split.
Qed.

(** X2. Whatever sequence of [start()] and [end()] calls a recorder
    receives, its name and its Trend stay as constructed, the sink keeps
    every earlier sample, and it gains exactly one sample per [end()]
    call, each a Trend sample under the recorder's Trend name. *)
Theorem LogTime_calls_accounting
    (cs : list Call) (this : LogTime.t) (sink : list Sample) :
  LogTime.name (fst (calls cs this sink)) = LogTime.name this
  /\ LogTime.trend (fst (calls cs this sink)) = LogTime.trend this
  /\ exists added,
       snd (calls cs this sink) = sink ++ added
       /\ List.length added = List.length (filter is_end cs)
       /\ Forall (fun smp => kind smp = KTrend
                             /\ metric smp = trend_name (LogTime.trend this))
                 added.
Proof.
  revert this sink.
  induction cs as [| c cs IH]; intros this sink.
  - cbn. repeat split. exists []. rewrite app_nil_r. repeat split.
    constructor.
  - rewrite calls_cons.
    destruct (call_shape this sink c) as (Hn & Ht & Hs).
    destruct (IH (fst (call (this, sink) c)) (snd (call (this, sink) c)))
      as (IHn & IHt & added & IHs & IHl & IHf).
    rewrite IHn, IHt, Hn, Ht. repeat split.
    rewrite IHs, Hs, Ht in *. cbn [filter].
    destruct (is_end c).
    + eexists. rewrite <- app_assoc. split; [reflexivity |].
      cbn. rewrite IHl. split; [reflexivity |].
      constructor; [split; reflexivity | exact IHf].
    + exists added. rewrite app_nil_r. repeat split; assumption.
Qed.

(** X3. Repeated measured cycles on one recorder, in whatever state it
    starts: each [start()]/[end()] pair forwards one sample, in order,
    whose value is that pair's end instant minus its start instant; no
    cycle leaks into the next.  The end readings are clock readings other
    than [0]. *)
Theorem LogTime_cycles_forward
    (cs : list (Z * Z)) (this : LogTime.t) (sink : list Sample) :
  Forall (fun c => snd c <> 0) cs ->
  snd (calls (cycles cs) this sink)
  = sink ++ map (fun c => mkSample KTrend (trend_name (LogTime.trend this))
                                   (JNumber (snd c - fst c))) cs.
Proof.
  intros Hcs. revert this sink.
  induction Hcs as [| [T0 T1] cs HT1 _ IH]; intros this sink.
  - cbn. rewrite app_nil_r. reflexivity.
  - cbn [cycles flat_map app fst snd] in *.
    rewrite !calls_cons. fold (cycles cs). rewrite IH.
    unfold call, LogTime.end_, LogTime.start, LogTime.duration, Trend_add.
    cbn. apply Z.eqb_neq in HT1. rewrite HT1. cbn.
    rewrite <- app_assoc. reflexivity.
Qed.

Lemma LogTime_cycles_forward_witness :
  Forall (fun c => snd c <> 0) [(1000, 1500); (2000, 2040)]
  /\ snd (calls (cycles [(1000, 1500); (2000, 2040)])
                (LogTime.new (Some "api_name")) [])
     = [] ++ map (fun c => mkSample KTrend "api_name" (JNumber (snd c - fst c)))
                 [(1000, 1500); (2000, 2040)].
Proof.
  assert (H : Forall (fun c : Z * Z => snd c <> 0) [(1000, 1500); (2000, 2040)]).
  { repeat constructor; discriminate. }
  split; [exact H |].
  exact (LogTime_cycles_forward [(1000, 1500); (2000, 2040)]
           (LogTime.new (Some "api_name")) [] H).
Defined.

(** X4. [start()] does not reset the end marker.  After a measurement
    that ended at [T1], a new [start()] at [T2] makes the [duration]
    getter yield [T1 - T2], the old end minus the new start, until the
    next [end()]; the sentinel [-1] is only seen before the first
    [end()]. *)
Theorem LogTime_stale_end_marker
    (this : LogTime.t) (sink : list Sample) (T1 T2 : Z) :
  T1 <> 0 ->
  LogTime.duration (fst (calls [CallEnd T1; CallStart T2] this sink))
  = JNumber (T1 - T2).
Proof.
  intros HT1. unfold calls, LogTime.duration. cbn.
  apply Z.eqb_neq in HT1. rewrite HT1. reflexivity.
Qed.

Lemma LogTime_stale_end_marker_witness :
  1500 <> 0
  /\ LogTime.duration
       (fst (calls [CallEnd 1500; CallStart 2000]
                   (LogTime.start 1000 (LogTime.new (Some "api_name"))) []))
     = JNumber (1500 - 2000).
Proof.
  split; [discriminate |].
  apply (LogTime_stale_end_marker
           (LogTime.start 1000 (LogTime.new (Some "api_name"))) [] 1500 2000).
  discriminate.
Defined.

(** ** The session under sequences of signals *)

Lemma run_cons (e : Event) (events : list Event) (s : Session) :
  run (e :: events) s = run events (dispatch s e).
Proof. reflexivity. Qed.

Lemma count_signals_cons (p : Event -> bool) (e : Event) (events : list Event) :
  count_signals p (e :: events)
  = ((if p e then 1 else 0) + count_signals p events)%nat.
Proof.
  unfold count_signals. cbn [filter]. destruct (p e); reflexivity.
Qed.

(** What one signal does to the outbox, the sleeps and the console. *)
Lemma dispatch_effects (s : Session) (e : Event) :
  sent (dispatch s e) = sent s ++ (if is_open e then ["onTestcase1"] else [])
  /\ slept (dispatch s e) = slept s ++ (if is_close e then [1] else [])
  /\ List.length (console (dispatch s e))
     = (List.length (console s) + (if is_reported e then 1 else 0))%nat.
Proof.
  destruct e as [iso | | now message | cause]; cbn.
  - rewrite app_nil_r, length_app. repeat split.
  - rewrite app_nil_r, length_app. repeat split.
  - unfold on_message.
    destruct (String.eqb message "onTestcase1"); cbn;
      rewrite !app_nil_r, length_app; repeat split.
  - unfold on_error.
    destruct (negb (String.eqb cause "websocket: close sent")); cbn;
      rewrite !app_nil_r, ?length_app, ?Nat.add_0_r; repeat split.
Qed.

(** What one signal does to the sink. *)
Lemma dispatch_sink (s : Session) (e : Event) :
  exists added,
    sink (dispatch s e) = sink s ++ added
    /\ forall k, count_kind k added = if is_echo e then 1%nat else 0%nat.
Proof.
  destruct e as [iso | | now message | cause]; cbn [dispatch is_echo].
  - exists []. rewrite app_nil_r. split; [reflexivity | intros k; reflexivity].
  - exists []. rewrite app_nil_r. split; [reflexivity | intros k; reflexivity].
  - destruct (String.eqb_spec message "onTestcase1") as [-> | Hneq].
    + eexists. split; [apply on_message_echo |].
      intros k. destruct k; reflexivity.
    + destruct (on_message_other now message s Hneq) as [line ->].
      exists []. rewrite app_nil_r.
      split; [reflexivity | intros k; reflexivity].
  - exists []. rewrite app_nil_r. split; [| intros k; reflexivity].
    unfold on_error.
    destruct (negb (String.eqb cause "websocket: close sent")); reflexivity.
Qed.

(** X5. Over any sequence of signals, from any state of the session: it
    sends the probe ["onTestcase1"] once per open signal and sends
    nothing else, so a message, a close or an error never triggers a
    send; and it pauses for one second once per close signal and at no
    other time. *)
Theorem session_probes_and_pauses (events : list Event) (s : Session) :
  sent (run events s)
  = sent s ++ repeat "onTestcase1" (count_signals is_open events)
  /\ slept (run events s)
     = slept s ++ repeat 1 (count_signals is_close events).
Proof.
  revert s. induction events as [| e events IH]; intros s.
  - cbn. rewrite !app_nil_r. split; reflexivity.
  - rewrite run_cons, !count_signals_cons.
    destruct (IH (dispatch s e)) as [IHsent IHslept].
    destruct (dispatch_effects s e) as (Hsent & Hslept & _).
    rewrite IHsent, IHslept, Hsent, Hslept, <- !app_assoc.
    split; [destruct (is_open e) | destruct (is_close e)]; reflexivity.
Qed.

(** X6. Over any sequence of signals, from any state of the session, the
    numbers of Trend samples, of gauge updates and of counter increments
    each grow by exactly the number of messages equal to
    ["onTestcase1"]: every echo is counted, also a second or third one,
    and no other signal touches a metric. *)
Theorem session_metric_counts
    (events : list Event) (s : Session) (k : MetricKind) :
  count_kind k (sink (run events s))
  = (count_kind k (sink s) + count_signals is_echo events)%nat.
Proof.
  revert s. induction events as [| e events IH]; intros s.
  - cbn. apply plus_n_O.
  - rewrite run_cons, count_signals_cons, IH.
    destruct (dispatch_sink s e) as (added & -> & Hcount).
    rewrite count_kind_app, Hcount. apply eq_sym, Nat.add_assoc.
Qed.

(** X7. Over any sequence of signals, every signal makes exactly one
    [console.log] call, except an error whose cause is
    ["websocket: close sent"], which makes none: every message is logged
    whether or not it is the echo. *)
Theorem session_console_lines (events : list Event) (s : Session) :
  List.length (console (run events s))
  = (List.length (console s) + count_signals is_reported events)%nat.
Proof.
  revert s. induction events as [| e events IH]; intros s.
  - cbn. apply plus_n_O.
  - rewrite run_cons, count_signals_cons, IH.
    destruct (dispatch_effects s e) as (_ & _ & ->).
    apply eq_sym, Nat.add_assoc.
Qed.

(** The value [end()] yields on a recorder whose start marker is unset. *)
Lemma end_unstarted_value (this : LogTime.t) (sink : list Sample) (now : Z) :
  LogTime.startTime this = JUndefined ->
  fst (fst (LogTime.end_ now this sink)) = unstarted_rtt now.
Proof.
  intros Hs. unfold LogTime.end_, LogTime.duration, unstarted_rtt. cbn.
  rewrite Hs. destruct (now =? 0); reflexivity.
Qed.

Lemma dispatch_unstarted (s : Session) (e : Event) :
  wired s ->
  LogTime.startTime (trend s) = JUndefined ->
  sink (dispatch s e) = sink s ++ echo_samples e.
Proof.
  intros (Hg & Ht & Hc) Hs.
  destruct e as [iso | | now message | cause]; unfold echo_samples;
    cbn [dispatch is_echo].
  - cbn. rewrite app_nil_r. reflexivity.
  - cbn. rewrite app_nil_r. reflexivity.
  - destruct (String.eqb_spec message "onTestcase1") as [-> | Hneq].
    + rewrite on_message_echo. cbv zeta.
      rewrite (end_unstarted_value _ _ _ Hs), Hg, Ht, Hc. reflexivity.
    + destruct (on_message_other now message s Hneq) as [line ->].
      cbn. rewrite app_nil_r. reflexivity.
  - rewrite app_nil_r. unfold on_error.
    destruct (negb (String.eqb cause "websocket: close sent")); reflexivity.
Qed.

Lemma run_unstarted (events : list Event) :
  forall s, wired s ->
            LogTime.startTime (trend s) = JUndefined ->
            sink (run events s) = sink s ++ flat_map echo_samples events.
Proof.
  induction events as [| e events IH]; intros s Hw Hs.
  - cbn. rewrite app_nil_r. reflexivity.
  - rewrite run_cons. cbn [flat_map].
    destruct (dispatch_closure s e) as (_ & D2 & D3 & D4 & D5).
    rewrite IH.
    + rewrite (dispatch_unstarted s e Hw Hs), <- app_assoc. reflexivity.
    + destruct Hw as (Hg & Ht & Hc). unfold wired.
      rewrite D2, D3, D4. repeat split; assumption.
    + rewrite D5. exact Hs.
Qed.

Lemma echo_samples_unmeasured (e : Event) :
  Forall (fun smp =>
            match kind smp with
            | KCounter => value smp = JNumber 1
            | _ => value smp = JNaN \/ value smp = JNumber (-1)
            end)
         (echo_samples e).
Proof.
  unfold echo_samples.
  destruct e as [iso | | now message | cause]; cbn [is_echo];
    try (constructor; fail).
  destruct (String.eqb message "onTestcase1"); [| constructor].
  assert (Hrtt : unstarted_rtt now = JNaN \/ unstarted_rtt now = JNumber (-1)).
  { unfold unstarted_rtt. destruct (now =? 0); auto. }
  apply Forall_cons; [exact Hrtt |].
  apply Forall_cons; [exact Hrtt |].
  apply Forall_cons; [reflexivity | apply Forall_nil].
Qed.

(** X8. A session as [onConnect] sets it up never forwards a measured
    round-trip time.  Whatever signals it handles, its sink holds, for
    each echo in arrival order, a Trend sample, a gauge update and a
    counter increment; the Trend and gauge values are [NaN] (or the
    sentinel [-1] for a clock reading of [0]), because no handler calls
    [start()], and the counter value is 1. *)
Theorem session_samples_unmeasured (vu : Z) (events : list Event) :
  sink (run events (onConnect vu)) = flat_map echo_samples events
  /\ Forall (fun smp =>
               match kind smp with
               | KCounter => value smp = JNumber 1
               | _ => value smp = JNaN \/ value smp = JNumber (-1)
               end)
            (sink (run events (onConnect vu))).
Proof.
  assert (Hsink : sink (run events (onConnect vu))
                  = flat_map echo_samples events).
  { rewrite (run_unstarted events (onConnect vu) (onConnect_wired vu) eq_refl).
    reflexivity. }
  split; [exact Hsink |].
  rewrite Hsink. clear Hsink.
  induction events as [| e events IH]; cbn [flat_map]; [constructor |].
  apply Forall_app. split; [apply echo_samples_unmeasured | exact IH].
Qed.

(** ** The start delay across workers and iterations *)

Lemma timeout_value (ordinal iteration : Z) :
  timeout ordinal iteration
  = (if iteration =? 0 then ordinal else iteration) * 1000.
Proof.
  unfold timeout, per_stage_clients, per_stage_duration.
  rewrite Math_floor_integer. reflexivity.
Qed.

(** X9. On their first iteration (index 0) two different workers never
    get the same delay: their start times are at least one stage of
    1000 ms apart. *)
Theorem timeout_first_iteration_staggers (ordinal1 ordinal2 : Z) :
  ordinal1 <> ordinal2 ->
  timeout ordinal1 0 <> timeout ordinal2 0
  /\ 1000 <= Z.abs (timeout ordinal1 0 - timeout ordinal2 0).
Proof.
  intros Hneq. rewrite !timeout_value. cbn [Z.eqb]. lia.
Qed.

Lemma timeout_first_iteration_staggers_witness :
  1 <> 2
  /\ timeout 1 0 <> timeout 2 0
  /\ 1000 <= Z.abs (timeout 1 0 - timeout 2 0).
Proof.
  split; [discriminate |].
  apply (timeout_first_iteration_staggers 1 2). discriminate.
Defined.

(** X10. From the second iteration on (index other than 0) the delay no
    longer depends on the worker: all workers on the same iteration index
    get the same delay, the index times 1000 ms. *)
Theorem timeout_later_iterations_ignore_worker (ordinal1 ordinal2 iteration : Z) :
  iteration <> 0 ->
  timeout ordinal1 iteration = timeout ordinal2 iteration
  /\ timeout ordinal1 iteration = iteration * 1000.
Proof.
  intros Hi. rewrite !timeout_value.
  apply Z.eqb_neq in Hi. rewrite Hi. split; reflexivity.
Qed.

Lemma timeout_later_iterations_ignore_worker_witness :
  3 <> 0
  /\ timeout 1 3 = timeout 2 3
  /\ timeout 1 3 = 3 * 1000.
Proof.
  split; [discriminate |].
  apply (timeout_later_iterations_ignore_worker 1 2 3). discriminate.
Defined.

(** X11. With worker ordinals counted from 1, as [exec.vu.idInTest] is,
    no worker connects at once: the delay is a whole number of stages and
    at least one stage of 1000 ms, on every iteration. *)
Theorem timeout_at_least_one_stage (ordinal iteration : Z) :
  1 <= ordinal -> 0 <= iteration ->
  1000 <= timeout ordinal iteration
  /\ timeout ordinal iteration mod 1000 = 0.
Proof.
  intros Ho Hi. rewrite timeout_value. split.
  - destruct (Z.eqb_spec iteration 0); lia.
  - apply Z_mod_mult.
Qed.

Lemma timeout_at_least_one_stage_witness :
  1 <= 1 /\ 0 <= 0
  /\ 1000 <= timeout 1 0
  /\ timeout 1 0 mod 1000 = 0.
Proof.
  split; [discriminate |]. split; [discriminate |].
  apply (timeout_at_least_one_stage 1 0); discriminate.
Defined.

(** ** The configuration read from the environment *)

(** X12. The [PVUS] setting has no effect: the options the script hands
    to the runtime are the same whatever [PVUS] holds, the scene and the
    duration being equal. *)
Theorem options_ignore_PVUS (env : Env) (pvus : option string) :
  options (mkEnv (SCENE env) pvus (DURATION env)) = options env.
Proof.
  destruct env as [scene0 pvus0 duration0]. reflexivity.
Qed.

(** X13. The constant descriptor always runs 2 workers for a duration
    that is never the empty string: the [DURATION] setting when it is set
    and not empty, and ["1m"] when it is unset or empty. *)
Theorem constant_duration_default (env : Env) :
  exists d,
    scenarios (constant_testing env)
    = [("constant", ConstantVUs 2 d [("type", "game")])]
    /\ d <> ""
    /\ ((DURATION env = Some d)
        \/ (d = "1m" /\ (DURATION env = None \/ DURATION env = Some ""))).
Proof.
  exists (duration (PerfEnvironment env)).
  split; [reflexivity |].
  unfold PerfEnvironment, or_string. cbn [duration].
  destruct (DURATION env) as [d |].
  - destruct (String.eqb_spec d "") as [-> | Hd].
    + split; [discriminate |]. right. auto.
    + split; [exact Hd |]. left. reflexivity.
  - split; [discriminate |]. right. auto.
Qed.

(** X14. The environment shapes the constant descriptor only: for each
    of the four names that [initialize] compares against, the descriptor
    returned is the same in every environment. *)
Theorem matched_scenes_ignore_env (env env' : Env) (name : string) :
  In name matched_names ->
  initialize env (Some name) = initialize env' (Some name).
Proof.
  intros Hin. cbn in Hin.
  destruct Hin as [<- | [<- | [<- | [<- | []]]]]; reflexivity.
Qed.

Lemma matched_scenes_ignore_env_witness :
  In "stress" matched_names
  /\ initialize (mkEnv (Some "stress") None (Some "30s")) (Some "stress")
     = initialize (mkEnv None (Some "5") None) (Some "stress").
Proof.
  assert (H : In "stress" matched_names) by (cbn; auto).
  split; [exact H |].
  exact (matched_scenes_ignore_env
           (mkEnv (Some "stress") None (Some "30s"))
           (mkEnv None (Some "5") None) "stress" H).
Defined.

(** X15. [initialize] returns the constant descriptor exactly for the
    scenes that are none of the four names it compares against: no
    matched name resolves to the fallback. *)
Theorem initialize_constant_iff (env : Env) (scene : option string) :
  initialize env scene = constant_testing env
  <-> (forall name, scene = Some name -> ~ In name matched_names).
Proof.
  split.
  - intros Hc name -> Hin. cbn in Hin.
    destruct Hin as [<- | [<- | [<- | [<- | []]]]]; discriminate Hc.
  - intros Hnot. destruct scene as [name |]; [| reflexivity].
    specialize (Hnot name eq_refl).
    by_scene_name name; try reflexivity;
      exfalso; apply Hnot; subst name; cbn; auto 8.
Qed.

Lemma initialize_constant_iff_witness :
  (forall name, Some "Stress" = Some name -> ~ In name matched_names)
  /\ initialize (mkEnv (Some "Stress") None None) (Some "Stress")
     = constant_testing (mkEnv (Some "Stress") None None).
Proof.
  assert (H : forall name, Some "Stress" = Some name -> ~ In name matched_names).
  { intros name Heq. injection Heq as <-. cbn.
    intros [H | [H | [H | [H | []]]]]; discriminate H. }
  split; [exact H |].
  exact (proj2 (initialize_constant_iff
                  (mkEnv (Some "Stress") None None) (Some "Stress")) H).
Defined.

(** X16. The four matched names select four different descriptors: two
    of them resolve to the same options only if they are the same
    name. *)
Theorem initialize_distinguishes_names (env : Env) (a b : string) :
  In a matched_names -> In b matched_names ->
  initialize env (Some a) = initialize env (Some b) ->
  a = b.
Proof.
  intros Ha Hb. cbn in Ha, Hb.
  destruct Ha as [<- | [<- | [<- | [<- | []]]]];
    destruct Hb as [<- | [<- | [<- | [<- | []]]]];
    intros H; try reflexivity; discriminate H.
Qed.

Lemma initialize_distinguishes_names_witness :
  In "stress" matched_names /\ In "stress" matched_names
  /\ initialize (mkEnv None None None) (Some "stress")
     = initialize (mkEnv None None None) (Some "stress")
  /\ "stress" = "stress".
Proof.
  assert (H : In "stress" matched_names) by (cbn; auto).
  split; [exact H |]. split; [exact H |]. split; [reflexivity |].
  exact (initialize_distinguishes_names
           (mkEnv None None None) "stress" "stress" H H eq_refl).
Defined.

(** X17. Whatever the scene, the only scenario of the resolved options
    that names an [exec] function is [monitor] of the iterations
    descriptor, and the function it names, ["monitor"], is not among the
    module's exports; every other scenario runs the default export. *)
Theorem exec_names_no_export
    (env : Env) (scene : option string) (key : string) (sc : Scenario) :
  In (key, sc) (scenarios (initialize env scene)) ->
  exec_of sc = None
  \/ (scene = Some "iterations" /\ key = "monitor"
      /\ exec_of sc = Some "monitor" /\ ~ In "monitor" exports).
Proof.
  assert (Hexports : ~ In "monitor" exports).
  { cbn. intros [H | [H | [H | [H | [H | [H | []]]]]]]; discriminate H. }
  destruct scene as [name |].
  - by_scene_name name; cbn; intros Hin.
    + destruct Hin as [H | [H | []]]; injection H as <- <-.
      * left. reflexivity.
      * right. subst name. repeat split. exact Hexports.
    + destruct Hin as [H | []]. injection H as <- <-. left. reflexivity.
    + destruct Hin.
    + destruct Hin as [H | []]. injection H as <- <-. left. reflexivity.
    + destruct Hin as [H | []]. injection H as <- <-. left. reflexivity.
  - cbn. intros [H | []]. injection H as <- <-. left. reflexivity.
Qed.

Lemma exec_names_no_export_witness :
  let env := mkEnv (Some "iterations") None None in
  In ("monitor", ConstantArrivalRate 1 "1s" 1 "1m10s" "monitor")
     (scenarios (options env))
  /\ (exec_of (ConstantArrivalRate 1 "1s" 1 "1m10s" "monitor") = None
      \/ (SCENE env = Some "iterations" /\ "monitor" = "monitor"
          /\ exec_of (ConstantArrivalRate 1 "1s" 1 "1m10s" "monitor")
             = Some "monitor"
          /\ ~ In "monitor" exports)).
Proof.
  cbv zeta.
  assert (H : In ("monitor", ConstantArrivalRate 1 "1s" 1 "1m10s" "monitor")
                 (scenarios (options (mkEnv (Some "iterations") None None)))).
  { cbn. auto. }
  split; [exact H |].
  exact (exec_names_no_export (mkEnv (Some "iterations") None None)
           (Some "iterations") "monitor"
           (ConstantArrivalRate 1 "1s" 1 "1m10s" "monitor") H).
Defined.
